(** * install_ml_dependencies.py: the CityWISE dependency installer

    A shallow embedding of [src/install_ml_dependencies.py].  The script
    talks to three things outside itself: the interpreter ([sys.version_info],
    [sys.executable]), the child processes started by
    [subprocess.check_call], and standard output.  The first two are read
    from an environment [env]; the calls made and the text printed are
    threaded through a [world].  Python exceptions ([sys.exit], the error of
    [check_call]) are the second summand of a computation's result. *)

From Stdlib Require Import ZArith List String Ascii Bool Lia DecimalString.
Import ListNotations.
Local Open Scope string_scope.
Local Open Scope Z_scope.

(** ** Strings of the script *)

(** The line feed and the double quote, which the script writes as escapes. *)
Definition nl : string := String (ascii_of_nat 10) EmptyString.
Definition dq : string := String (ascii_of_nat 34) EmptyString.

(** Python's [s * n] on strings. *)
Fixpoint str_mul (s : string) (n : nat) : string :=
  match n with
  | O => EmptyString
  | S k => s ++ str_mul s k
  end.

(** [str] of a Python integer, as an f-string renders it. *)
Definition str_int (z : Z) : string := NilZero.string_of_int (Z.to_int z).

(** ** Environment, exceptions and the world *)

(** [sys.version_info], the three fields the script reads. *)
Record version_info : Type := mk_version
  { major : Z; minor : Z; micro : Z }.

(** What becomes of one child process: it ran and ended with a return code,
    or it could not be started or waited for and the call raised an error of
    the given class (an [OSError] such as [FileNotFoundError], say). *)
Inductive child_result : Type :=
| Exited (returncode : Z)
| SpawnError (name : string).

(** The exceptions that travel through the script. *)
Inductive exn : Type :=
| CalledProcessError (returncode : Z) (cmd : list string)
| OtherError (name : string)
| SystemExit (code : Z).

(** The host: the interpreter's version and path, the fate of the [n]-th
    child process when started with a given argument vector, and the
    library's rendering [str(e)] of a [CalledProcessError]. *)
Record env : Type := mk_env
  { version : version_info;
    executable : string;
    child : nat -> list string -> child_result;
    str_error : Z -> list string -> string }.

(** The run so far: the arguments of every [print], the argument vector of
    every [check_call], and [main]'s local list [failed_packages]. *)
Record world : Type := mk_world
  { stdout : list string;
    calls : list (list string);
    failed_packages : list string }.

Definition initial_world : world :=
  {| stdout := []; calls := []; failed_packages := [] |}.

(** ** Computations: state passing with exceptions *)

Definition M (A : Type) : Type := world -> (A + exn) * world.

Definition ret {A : Type} (a : A) : M A := fun w => (inl a, w).

Definition raise {A : Type} (x : exn) : M A := fun w => (inr x, w).

Definition bind {A B : Type} (m : M A) (k : A -> M B) : M B :=
  fun w =>
    match m w with
    | (inl a, w') => k a w'
    | (inr x, w') => (inr x, w')
    end.

Notation "x <- m ;; k" := (bind m (fun x => k))
  (at level 61, m at next level, right associativity).
Notation "m ;; k" := (bind m (fun _ => k))
  (at level 61, right associativity).

(** [try: body except subprocess.CalledProcessError as e: handler]. *)
Definition try_except_called_process_error {A : Type}
    (body : M A) (handler : Z -> list string -> M A) : M A :=
  fun w =>
    match body w with
    | (inr (CalledProcessError rc cmd), w') => handler rc cmd w'
    | other => other
    end.

(** [print(s)]. *)
Definition print (s : string) : M unit :=
  fun w =>
    (inl tt,
     {| stdout := stdout w ++ [s];
        calls := calls w;
        failed_packages := failed_packages w |}).

(** [sys.exit(code)]. *)
Definition sys_exit {A : Type} (code : Z) : M A := raise (SystemExit code).

(** [subprocess.check_call(args)]: start the child, wait for it, return on
    return code 0 and raise [CalledProcessError] on any other; an error of
    starting it is raised as it is. *)
Definition check_call (e : env) (args : list string) : M unit :=
  fun w =>
    let w' := {| stdout := stdout w;
                 calls := calls w ++ [args];
                 failed_packages := failed_packages w |} in
    match child e (List.length (calls w)) args with
    | Exited rc =>
        if rc =? 0 then (inl tt, w')
        else (inr (CalledProcessError rc args), w')
    | SpawnError name => (inr (OtherError name), w')
    end.

(** [failed_packages = []] and [failed_packages.append(package)]. *)
Definition set_failed_packages (l : list string) : M unit :=
  fun w =>
    (inl tt,
     {| stdout := stdout w; calls := calls w; failed_packages := l |}).

Definition append_failed_package (package : string) : M unit :=
  fun w =>
    (inl tt,
     {| stdout := stdout w;
        calls := calls w;
        failed_packages := failed_packages w ++ [package] |}).

Definition get_failed_packages : M (list string) :=
  fun w => (inl (failed_packages w), w).

(** ** The script *)

(** The command line of one install, source line 14. *)
Definition pip_argv (e : env) (package : string) : list string :=
  [executable e; "-m"; "pip"; "install"; package].

(** The two f-strings of source lines 15 and 18. *)
Definition installed_line (package : string) : string :=
  "✓ Successfully installed " ++ package.

Definition failed_line (e : env) (package : string)
    (rc : Z) (cmd : list string) : string :=
  "✗ Failed to install " ++ package ++ ": " ++ str_error e rc cmd.

(** [install_package], source lines 11-19. *)
Definition install_package (e : env) (package : string) : M bool :=
  try_except_called_process_error
    (check_call e (pip_argv e package);;
     print (installed_line package);;
     ret true)
    (fun rc cmd =>
       print (failed_line e package rc cmd);;
       ret false).

(** The test of source line 24. *)
Definition too_old (v : version_info) : bool :=
  (major v <? 3) || ((major v =? 3) && (minor v <? 7)).

(** The f-string of source line 27. *)
Definition detected_line (v : version_info) : string :=
  "✓ Python " ++ str_int (major v) ++ "." ++ str_int (minor v)
    ++ "." ++ str_int (micro v) ++ " detected".

(** [check_python_version], source lines 21-28. *)
Definition check_python_version (e : env) : M bool :=
  let v := version e in
  if too_old v then
    print "Error: Python 3.7 or higher is required";;
    ret false
  else
    print (detected_line v);;
    ret true.

(** The two lists of source lines 39-53. *)
Definition packages : list string :=
  [ "numpy>=1.21.0";
    "scikit-learn>=1.0.0";
    "pandas>=1.3.0";
    "joblib>=1.1.0";
    "pickle5>=0.0.11; python_version<'3.8'" ].

Definition optional_packages : list string :=
  [ "tensorflow>=2.8.0";
    "keras>=2.8.0";
    "matplotlib>=3.5.0";
    "seaborn>=0.11.0" ].

(** The loop of source lines 58-60. *)
Fixpoint required_loop (e : env) (l : list string) : M unit :=
  match l with
  | [] => ret tt
  | package :: rest =>
      ok <- install_package e package;;
      (if negb ok then append_failed_package package else ret tt);;
      required_loop e rest
  end.

(** The loop of source lines 63-64. *)
Fixpoint optional_loop (e : env) (l : list string) : M unit :=
  match l with
  | [] => ret tt
  | package :: rest =>
      install_package e package;;
      optional_loop e rest
  end.

(** The loop of source lines 70-71. *)
Fixpoint print_failed (l : list string) : M unit :=
  match l with
  | [] => ret tt
  | package :: rest =>
      print ("   - " ++ package);;
      print_failed rest
  end.

(** The title of source line 31. *)
Definition title : string := "CityWISE ML Dependencies Installation".

(** The banner of source lines 32 and 66. *)
Definition banner : string := str_mul "=" 40.

(** Source lines 66-83: the summary. *)
Definition summary : M unit :=
  print (nl ++ banner);;
  failed <- get_failed_packages;;
  match failed with
  | _ :: _ =>
      print "⚠️  Some required packages failed to install:";;
      print_failed failed;;
      print (nl ++ "The ML models may not work properly without these packages.");;
      print "Please install them manually or check your Python environment.";;
      sys_exit 1
  | [] =>
      print "✅ All required ML dependencies installed successfully!";;
      print (nl ++ "You can now use the trained ML models in the CityWISE platform:");;
      print "   - Air Quality Predictor (air_quality_predictor.pkl)";;
      print "   - Healthcare Priority Model (healthcare_priority_model.h5)";;
      print "   - Healthcare Scaler (healthcare_scaler.pkl)"
  end;;
  print (nl ++ "To test the installation, run:");;
  print ("   python -c " ++ dq
            ++ "import sklearn, numpy, pandas; print('ML dependencies ready!')"
            ++ dq).

(** Source lines 55-60: the pass over the required packages. *)
Definition required_pass (e : env) : M unit :=
  print (nl ++ "Installing required packages...");;
  set_failed_packages [];;
  required_loop e packages.

(** Source lines 62-64: the pass over the optional packages. *)
Definition optional_pass (e : env) : M unit :=
  print (nl ++ "Installing optional packages...");;
  optional_loop e optional_packages.

(** [main], source lines 30-83. *)
Definition main (e : env) : M unit :=
  print title;;
  print banner;;
  ok <- check_python_version e;;
  (if negb ok then sys_exit 1 else ret tt);;
  required_pass e;;
  optional_pass e;;
  summary.

(** One run of the script from a fresh process, and the status the process
    ends with: 0 when [main] returns, the code of [sys.exit], and 1 when an
    exception reaches the top level. *)
Definition run (e : env) : (unit + exn) * world := main e initial_world.

Definition exit_status (r : (unit + exn) * world) : Z :=
  match fst r with
  | inl _ => 0
  | inr (SystemExit code) => code
  | inr _ => 1
  end.

(** ** Observations of a run *)

(** Whether the version gate lets the run through. *)
Definition version_ok (e : env) : bool := negb (too_old (version e)).

(** The fate of the install of [package] when it is the [n]-th child. *)
Definition attempt (e : env) (n : nat) (package : string) : child_result :=
  child e n (pip_argv e package).

Definition succeeded (r : child_result) : bool :=
  match r with
  | Exited rc => rc =? 0
  | SpawnError _ => false
  end.

(** The specifiers handed to [install_package] so far: the last argument of
    each command line. *)
Definition attempts (w : world) : list string :=
  map (fun args => nth 4 args EmptyString) (calls w).

(** The first install of [l], started as child [n], [S n], ..., whose
    [check_call] raises something else than [CalledProcessError]. *)
Fixpoint first_raise (e : env) (n : nat) (l : list string) : option string :=
  match l with
  | [] => None
  | package :: rest =>
      match attempt e n package with
      | SpawnError name => Some name
      | Exited _ => first_raise e (S n) rest
      end
  end.

(** The specifiers of [l] up to and including the first that raises. *)
Fixpoint reached (e : env) (n : nat) (l : list string) : list string :=
  match l with
  | [] => []
  | package :: rest =>
      package ::
      match attempt e n package with
      | SpawnError _ => []
      | Exited _ => reached e (S n) rest
      end
  end.

(** The per-package lines printed for [l], up to the first that raises. *)
Fixpoint lines_of (e : env) (n : nat) (l : list string) : list string :=
  match l with
  | [] => []
  | package :: rest =>
      match attempt e n package with
      | SpawnError _ => []
      | Exited rc =>
          (if rc =? 0 then installed_line package
           else failed_line e package rc (pip_argv e package))
          :: lines_of e (S n) rest
      end
  end.

(** The specifiers of [l] that ended with a non-zero return code, up to the
    first that raises. *)
Fixpoint failed_of (e : env) (n : nat) (l : list string) : list string :=
  match l with
  | [] => []
  | package :: rest =>
      match attempt e n package with
      | SpawnError _ => []
      | Exited rc =>
          if rc =? 0 then failed_of e (S n) rest
          else package :: failed_of e (S n) rest
      end
  end.

(** The subsequence of [l], in the order of [l], of the specifiers whose
    install did not succeed: [l] is paired with the child numbers
    [n], [S n], ... and filtered. *)
Definition failed_subsequence (e : env) (n : nat) (l : list string)
    : list string :=
  map fst
    (filter (fun pi => negb (succeeded (attempt e (snd pi) (fst pi))))
       (combine l (seq n (List.length l)))).

(** Whether every install of [l] succeeded. *)
Definition all_succeed (e : env) (n : nat) (l : list string) : bool :=
  forallb (fun pi => succeeded (attempt e (snd pi) (fst pi)))
    (combine l (seq n (List.length l))).

(** What [main] prints after the summary banner, source lines 68-83. *)
Definition failure_block (failed : list string) : list string :=
  ["⚠️  Some required packages failed to install:"]
    ++ map (fun package => "   - " ++ package) failed
    ++ [nl ++ "The ML models may not work properly without these packages.";
        "Please install them manually or check your Python environment."].

Definition success_block : list string :=
  ["✅ All required ML dependencies installed successfully!";
   nl ++ "You can now use the trained ML models in the CityWISE platform:";
   "   - Air Quality Predictor (air_quality_predictor.pkl)";
   "   - Healthcare Priority Model (healthcare_priority_model.h5)";
   "   - Healthcare Scaler (healthcare_scaler.pkl)";
   nl ++ "To test the installation, run:";
   "   python -c " ++ dq
     ++ "import sklearn, numpy, pandas; print('ML dependencies ready!')"
     ++ dq].

Definition status_block (failed : list string) : list string :=
  match failed with
  | [] => success_block
  | _ :: _ => failure_block failed
  end.

(** What a run that passes the gate has printed when the required pass
    begins, and what the two passes add. *)
Definition header (e : env) : list string :=
  [title; banner; detected_line (version e)].

Definition required_lines (e : env) : list string :=
  (nl ++ "Installing required packages...") :: lines_of e 0 packages.

Definition optional_lines (e : env) : list string :=
  (nl ++ "Installing optional packages...")
    :: lines_of e (List.length packages) optional_packages.

(** ** Reading the output *)

Definition is_nl (c : ascii) : bool := (c =? ascii_of_nat 10)%char.

(** The text of a print after its leading blank lines. *)
Fixpoint skip_newlines (s : string) : string :=
  match s with
  | EmptyString => EmptyString
  | String c rest => if is_nl c then skip_newlines rest else s
  end.

(** A print shows a banner when its first visible character is [=]. *)
Definition is_banner_print (s : string) : bool :=
  match skip_newlines s with
  | EmptyString => false
  | String c _ => (c =? "=")%char
  end.

(** The lines of a status block that list something. *)
Definition is_bullet (s : string) : bool := prefix "   - " s.

(** The text between the first opening and the next closing parenthesis. *)
Fixpoint until_close (s : string) : option string :=
  match s with
  | EmptyString => None
  | String c rest =>
      if (c =? ")")%char then Some EmptyString
      else option_map (String c) (until_close rest)
  end.

Fixpoint named_file (s : string) : option string :=
  match s with
  | EmptyString => None
  | String c rest =>
      if (c =? "(")%char then until_close rest else named_file rest
  end.

(** The file names a status block lists, in order. *)
Definition named_files (block : list string) : list string :=
  flat_map
    (fun s =>
       if is_bullet s then
         match named_file s with
         | Some f => [f]
         | None => []
         end
       else [])
    block.

(** ** Hosts *)

(** The same host under another interpreter version. *)
Definition with_version (v : version_info) (e : env) : env :=
  {| version := v;
     executable := executable e;
     child := child e;
     str_error := str_error e |}.

(** The same host with another rendering of the caught error. *)
Definition with_str_error (f : Z -> list string -> string) (e : env) : env :=
  {| version := version e;
     executable := executable e;
     child := child e;
     str_error := f |}.

(** A host whose children's fates depend on their number only. *)
Definition example_host (v : version_info) (f : nat -> child_result) : env :=
  {| version := v;
     executable := "/usr/bin/python3";
     child := fun n _ => f n;
     str_error := fun rc cmd =>
       "Command '" ++ concat " " cmd
         ++ "' returned non-zero exit status " ++ str_int rc ++ "." |}.

Definition exits_at (k : nat) (rc : Z) (n : nat) : child_result :=
  if Nat.eqb n k then Exited rc else Exited 0.

Definition raises_at (k : nat) (n : nat) : child_result :=
  if Nat.eqb n k then SpawnError "FileNotFoundError" else Exited 0.

Definition python39 : version_info := mk_version 3 9 0.
Definition python36 : version_info := mk_version 3 6 9.

Definition host_all_ok : env := example_host python39 (fun _ => Exited 0).
Definition host_python36 : env := example_host python36 (fun _ => Exited 0).
Definition host_pandas_fails : env := example_host python39 (exits_at 2 1).
Definition host_pickle5_fails : env := example_host python39 (exits_at 4 1).
Definition host_keras_fails : env := example_host python39 (exits_at 6 1).
Definition host_numpy_raises : env := example_host python39 (raises_at 0).
Definition host_tensorflow_raises : env := example_host python39 (raises_at 5).

(** The required entry that carries an environment marker, source line 44. *)
Definition pickle5 : string := "pickle5>=0.0.11; python_version<'3.8'".

(** How a loop over [l] ends. *)
Definition loop_result (e : env) (n : nat) (l : list string) : unit + exn :=
  match first_raise e n l with
  | Some name => inr (OtherError name)
  | None => inl tt
  end.

(** ** The primitives, one equation each *)

Lemma install_package_eq (e : env) (package : string) (w : world) :
  install_package e package w =
  match attempt e (List.length (calls w)) package with
  | Exited rc =>
      if rc =? 0 then
        (inl true,
         {| stdout := stdout w ++ [installed_line package];
            calls := calls w ++ [pip_argv e package];
            failed_packages := failed_packages w |})
      else
        (inl false,
         {| stdout := stdout w
                        ++ [failed_line e package rc (pip_argv e package)];
            calls := calls w ++ [pip_argv e package];
            failed_packages := failed_packages w |})
  | SpawnError name =>
      (inr (OtherError name),
       {| stdout := stdout w;
          calls := calls w ++ [pip_argv e package];
          failed_packages := failed_packages w |})
  end.
Proof.
  unfold install_package, try_except_called_process_error, bind, check_call,
    attempt.
  destruct (child e (List.length (calls w)) (pip_argv e package)) as [rc|name].
  - destruct (rc =? 0); reflexivity.
  - reflexivity.
Qed.

Lemma check_python_version_eq (e : env) (w : world) :
  check_python_version e w =
  (inl (version_ok e),
   {| stdout := stdout w ++
                  [if too_old (version e)
                   then "Error: Python 3.7 or higher is required"
                   else detected_line (version e)];
      calls := calls w;
      failed_packages := failed_packages w |}).
Proof.
  unfold check_python_version, version_ok.
  destruct (too_old (version e)); reflexivity.
Qed.

Lemma print_failed_eq (l : list string) :
  forall w,
    print_failed l w =
    (inl tt,
     {| stdout := stdout w ++ map (fun package => "   - " ++ package) l;
        calls := calls w;
        failed_packages := failed_packages w |}).
Proof.
  induction l as [|package rest IH]; intros w.
  - simpl. rewrite app_nil_r. destruct w; reflexivity.
  - cbn [print_failed map]. unfold bind at 1. cbn [print].
    rewrite IH. cbn [stdout calls failed_packages].
    rewrite <- app_assoc. reflexivity.
Qed.

(** ** The loops, one equation each *)

Lemma length_snoc {A : Type} (l : list A) (x : A) :
  List.length (l ++ [x]) = S (List.length l).
Proof. rewrite length_app. simpl. lia. Qed.

Lemma required_loop_eq (e : env) (l : list string) :
  forall w,
    required_loop e l w =
    (loop_result e (List.length (calls w)) l,
     {| stdout := stdout w ++ lines_of e (List.length (calls w)) l;
        calls := calls w
                   ++ map (pip_argv e) (reached e (List.length (calls w)) l);
        failed_packages :=
          failed_packages w ++ failed_of e (List.length (calls w)) l |}).
Proof.
  unfold loop_result.
  induction l as [|package rest IH]; intros w.
  - simpl. rewrite !app_nil_r. destruct w; reflexivity.
  - cbn [required_loop first_raise reached lines_of failed_of map].
    unfold bind at 1. rewrite install_package_eq.
    destruct (attempt e (List.length (calls w)) package) as [rc|name].
    + destruct (rc =? 0); cbn [negb]; unfold bind at 1;
        cbn [append_failed_package ret]; rewrite IH;
        cbn [stdout calls failed_packages]; rewrite length_snoc;
        rewrite <- !app_assoc; reflexivity.
    + rewrite !app_nil_r. reflexivity.
Qed.

Lemma optional_loop_eq (e : env) (l : list string) :
  forall w,
    optional_loop e l w =
    (loop_result e (List.length (calls w)) l,
     {| stdout := stdout w ++ lines_of e (List.length (calls w)) l;
        calls := calls w
                   ++ map (pip_argv e) (reached e (List.length (calls w)) l);
        failed_packages := failed_packages w |}).
Proof.
  unfold loop_result.
  induction l as [|package rest IH]; intros w.
  - simpl. rewrite !app_nil_r. destruct w; reflexivity.
  - cbn [optional_loop first_raise reached lines_of map].
    unfold bind at 1. rewrite install_package_eq.
    destruct (attempt e (List.length (calls w)) package) as [rc|name].
    + destruct (rc =? 0); rewrite IH;
        cbn [stdout calls failed_packages]; rewrite length_snoc;
        rewrite <- !app_assoc; reflexivity.
    + rewrite !app_nil_r. reflexivity.
Qed.

Lemma required_pass_eq (e : env) (w : world) :
  required_pass e w =
  (loop_result e (List.length (calls w)) packages,
   {| stdout := stdout w ++ (nl ++ "Installing required packages...")
                  :: lines_of e (List.length (calls w)) packages;
      calls := calls w
                 ++ map (pip_argv e)
                      (reached e (List.length (calls w)) packages);
      failed_packages := failed_of e (List.length (calls w)) packages |}).
Proof.
  unfold required_pass. unfold bind at 1. cbn [print].
  unfold bind at 1. cbn [set_failed_packages].
  rewrite required_loop_eq. cbn [stdout calls failed_packages app].
  rewrite <- app_assoc. reflexivity.
Qed.

Lemma optional_pass_eq (e : env) (w : world) :
  optional_pass e w =
  (loop_result e (List.length (calls w)) optional_packages,
   {| stdout := stdout w ++ (nl ++ "Installing optional packages...")
                  :: lines_of e (List.length (calls w)) optional_packages;
      calls := calls w
                 ++ map (pip_argv e)
                      (reached e (List.length (calls w)) optional_packages);
      failed_packages := failed_packages w |}).
Proof.
  unfold optional_pass. unfold bind at 1. cbn [print].
  rewrite optional_loop_eq. cbn [stdout calls failed_packages].
  rewrite <- app_assoc. reflexivity.
Qed.

Lemma summary_eq (w : world) :
  summary w =
  (match failed_packages w with
   | [] => inl tt
   | _ :: _ => inr (SystemExit 1)
   end,
   {| stdout := stdout w ++ (nl ++ banner)
                  :: status_block (failed_packages w);
      calls := calls w;
      failed_packages := failed_packages w |}).
Proof.
  unfold summary. unfold bind at 1. cbn [print].
  unfold bind at 1. cbn [get_failed_packages stdout calls failed_packages].
  destruct (failed_packages w) as [|f fs] eqn:Hf.
  - unfold bind, print, status_block, success_block.
    cbn [stdout calls failed_packages].
    rewrite <- !app_assoc. reflexivity.
  - unfold bind at 1. unfold bind at 1. cbn [print].
    unfold bind at 1. rewrite print_failed_eq.
    unfold bind, print, sys_exit, raise, status_block, failure_block.
    cbn [stdout calls failed_packages].
    rewrite <- !app_assoc. reflexivity.
Qed.

(** ** Facts about the observations *)

Section Observations.

Variable e : env.

Lemma reached_all (l : list string) :
  forall n, first_raise e n l = None -> reached e n l = l.
Proof.
  induction l as [|package rest IH]; intros n H; simpl in *.
  - reflexivity.
  - destruct (attempt e n package); [|discriminate].
    now rewrite IH.
Qed.

Lemma reached_prefix (l : list string) :
  forall n, exists rest, l = (reached e n l ++ rest)%list.
Proof.
  induction l as [|package rest IH]; intros n; simpl.
  - now exists [].
  - destruct (attempt e n package).
    + destruct (IH (S n)) as [tl Htl]. exists tl. simpl. now f_equal.
    + now exists rest.
Qed.

Lemma reached_short (l : list string) :
  forall n name,
    first_raise e n l = Some name ->
    (List.length (reached e n l) <= List.length l)%nat /\
    exists package,
      nth_error l (List.length (reached e n l) - 1) = Some package /\
      attempt e (n + (List.length (reached e n l) - 1)) package
      = SpawnError name.
Proof.
  induction l as [|package rest IH]; intros n name H; simpl in *.
  - discriminate.
  - destruct (attempt e n package) as [rc|nm] eqn:Ha.
    + destruct (IH (S n) name H) as [Hlen [p [Hp Hat]]].
      assert (Hpos : (0 < List.length (reached e (S n) rest))%nat).
      { destruct rest; simpl in *; [discriminate|lia]. }
      split; [lia|]. exists p.
      replace (List.length (reached e (S n) rest) - 0)%nat
        with (S (List.length (reached e (S n) rest) - 1)) by lia.
      simpl. split; [exact Hp|].
      replace (n + S (List.length (reached e (S n) rest) - 1))%nat
        with (S n + (List.length (reached e (S n) rest) - 1))%nat by lia.
      exact Hat.
    + injection H as <-. simpl. split; [lia|]. exists package.
      split; [reflexivity|]. now rewrite Nat.add_0_r.
Qed.

Lemma first_raise_app (l1 l2 : list string) :
  forall n,
    first_raise e n (l1 ++ l2) =
    match first_raise e n l1 with
    | Some name => Some name
    | None => first_raise e (n + List.length l1) l2
    end.
Proof.
  induction l1 as [|package rest IH]; intros n; simpl.
  - now rewrite Nat.add_0_r.
  - destruct (attempt e n package); [|reflexivity].
    rewrite IH. now rewrite Nat.add_succ_r.
Qed.

Lemma reached_app (l1 l2 : list string) :
  forall n,
    reached e n (l1 ++ l2) =
    match first_raise e n l1 with
    | Some _ => reached e n l1
    | None => (l1 ++ reached e (n + List.length l1) l2)%list
    end.
Proof.
  induction l1 as [|package rest IH]; intros n; simpl.
  - now rewrite Nat.add_0_r.
  - destruct (attempt e n package); [|reflexivity].
    rewrite IH. rewrite Nat.add_succ_r.
    now destruct (first_raise e (S n) rest).
Qed.

Lemma failed_of_subsequence (l : list string) :
  forall n,
    first_raise e n l = None ->
    failed_of e n l = failed_subsequence e n l.
Proof.
  unfold failed_subsequence.
  induction l as [|package rest IH]; intros n H; simpl in *.
  - reflexivity.
  - destruct (attempt e n package) as [rc|name]; [|discriminate].
    simpl. destruct (rc =? 0); simpl; now rewrite IH.
Qed.

Lemma all_succeed_iff (l : list string) :
  forall n,
    all_succeed e n l = true <->
    first_raise e n l = None /\ failed_of e n l = [].
Proof.
  unfold all_succeed.
  induction l as [|package rest IH]; intros n; simpl.
  - tauto.
  - destruct (attempt e n package) as [rc|name]; simpl.
    + destruct (rc =? 0); simpl.
      * apply IH.
      * split; [discriminate|]. intros [_ H]. discriminate.
    + split; [discriminate|]. intros [H _]. discriminate.
Qed.

Lemma failed_of_incl (l : list string) :
  forall n package, In package (failed_of e n l) -> In package l.
Proof.
  induction l as [|p rest IH]; intros n package H; simpl in *.
  - exact H.
  - destruct (attempt e n p) as [rc|name]; [|contradiction].
    destruct (rc =? 0).
    + right. eapply IH. exact H.
    + destruct H as [H|H]; [now left|right; eapply IH; exact H].
Qed.

End Observations.

(** ** One run, end to end *)

Lemma run_too_old (e : env) :
  version_ok e = false ->
  run e =
  (inr (SystemExit 1),
   {| stdout := [title; banner; "Error: Python 3.7 or higher is required"];
      calls := [];
      failed_packages := [] |}).
Proof.
  intros H. unfold run, main.
  unfold bind at 1. cbn [print]. unfold bind at 1. cbn [print].
  unfold bind at 1. rewrite check_python_version_eq. rewrite H.
  unfold version_ok in H. apply negb_false_iff in H. rewrite H.
  reflexivity.
Qed.

Lemma run_required_raises (e : env) (name : string) :
  version_ok e = true ->
  first_raise e 0 packages = Some name ->
  run e =
  (inr (OtherError name),
   {| stdout := header e ++ required_lines e;
      calls := map (pip_argv e) (reached e 0 packages);
      failed_packages := failed_of e 0 packages |}).
Proof.
  intros H Hr. unfold run, main.
  unfold bind at 1. cbn [print]. unfold bind at 1. cbn [print].
  unfold bind at 1. rewrite check_python_version_eq. rewrite H.
  unfold version_ok in H. apply negb_true_iff in H. rewrite H.
  cbn [negb]. unfold bind at 1. cbn [ret].
  unfold bind at 1. rewrite required_pass_eq. unfold loop_result.
  cbn [stdout calls failed_packages initial_world List.length app].
  rewrite Hr. reflexivity.
Qed.

Lemma run_optional_raises (e : env) (name : string) :
  version_ok e = true ->
  first_raise e 0 packages = None ->
  first_raise e (List.length packages) optional_packages = Some name ->
  run e =
  (inr (OtherError name),
   {| stdout := header e ++ required_lines e ++ optional_lines e;
      calls := map (pip_argv e)
                 (packages
                    ++ reached e (List.length packages) optional_packages);
      failed_packages := failed_of e 0 packages |}).
Proof.
  intros H Hr Ho. unfold run, main.
  unfold bind at 1. cbn [print]. unfold bind at 1. cbn [print].
  unfold bind at 1. rewrite check_python_version_eq. rewrite H.
  unfold version_ok in H. apply negb_true_iff in H. rewrite H.
  cbn [negb]. unfold bind at 1. cbn [ret].
  unfold bind at 1. rewrite required_pass_eq. unfold loop_result.
  cbn [stdout calls failed_packages initial_world List.length app].
  rewrite Hr. rewrite (reached_all e packages 0 Hr).
  unfold bind at 1. rewrite optional_pass_eq. unfold loop_result.
  cbn [stdout calls failed_packages].
  rewrite length_map. rewrite Ho.
  rewrite map_app. reflexivity.
Qed.

Lemma run_completes (e : env) :
  version_ok e = true ->
  first_raise e 0 packages = None ->
  first_raise e (List.length packages) optional_packages = None ->
  run e =
  (match failed_of e 0 packages with
   | [] => inl tt
   | _ :: _ => inr (SystemExit 1)
   end,
   {| stdout := header e ++ required_lines e ++ optional_lines e
                  ++ (nl ++ banner) :: status_block (failed_of e 0 packages);
      calls := map (pip_argv e) (packages ++ optional_packages);
      failed_packages := failed_of e 0 packages |}).
Proof.
  intros H Hr Ho. unfold run, main.
  unfold bind at 1. cbn [print]. unfold bind at 1. cbn [print].
  unfold bind at 1. rewrite check_python_version_eq. rewrite H.
  unfold version_ok in H. apply negb_true_iff in H. rewrite H.
  cbn [negb]. unfold bind at 1. cbn [ret].
  unfold bind at 1. rewrite required_pass_eq. unfold loop_result.
  cbn [stdout calls failed_packages initial_world List.length app].
  rewrite Hr. rewrite (reached_all e packages 0 Hr).
  unfold bind at 1. rewrite optional_pass_eq. unfold loop_result.
  cbn [stdout calls failed_packages].
  rewrite length_map. rewrite Ho.
  rewrite (reached_all e optional_packages _ Ho).
  rewrite summary_eq. cbn [stdout calls failed_packages].
  rewrite map_app.
  unfold header, required_lines, optional_lines.
  cbn [app]. rewrite <- !app_assoc. reflexivity.
Qed.

(** ** What every run has in common *)

Lemma attempts_of_argv (e : env) (l : list string) :
  map (fun args => nth 4 args EmptyString) (map (pip_argv e) l) = l.
Proof.
  induction l as [|package rest IH]; simpl; [reflexivity|].
  now rewrite IH.
Qed.

Lemma run_attempts (e : env) :
  version_ok e = true ->
  attempts (snd (run e)) = reached e 0 (packages ++ optional_packages).
Proof.
  intros H. rewrite reached_app. unfold attempts.
  change (0 + List.length packages)%nat with (List.length packages).
  destruct (first_raise e 0 packages) as [name|] eqn:Hr.
  - rewrite (run_required_raises e name H Hr). cbn [snd calls].
    apply attempts_of_argv.
  - destruct (first_raise e (List.length packages) optional_packages)
      as [name|] eqn:Ho.
    + rewrite (run_optional_raises e name H Hr Ho). cbn [snd calls].
      apply attempts_of_argv.
    + rewrite (run_completes e H Hr Ho). cbn [snd calls].
      rewrite attempts_of_argv.
      now rewrite (reached_all e optional_packages _ Ho).
Qed.

Lemma run_result (e : env) :
  version_ok e = true ->
  fst (run e) =
  match first_raise e 0 (packages ++ optional_packages) with
  | Some name => inr (OtherError name)
  | None =>
      match failed_of e 0 packages with
      | [] => inl tt
      | _ :: _ => inr (SystemExit 1)
      end
  end.
Proof.
  intros H. rewrite first_raise_app.
  destruct (first_raise e 0 packages) as [name|] eqn:Hr.
  - now rewrite (run_required_raises e name H Hr).
  - change (0 + List.length packages)%nat with (List.length packages).
    destruct (first_raise e (List.length packages) optional_packages)
      as [name|] eqn:Ho.
    + now rewrite (run_optional_raises e name H Hr Ho).
    + now rewrite (run_completes e H Hr Ho).
Qed.

Lemma run_failed_packages (e : env) :
  version_ok e = true ->
  failed_packages (snd (run e)) = failed_of e 0 packages.
Proof.
  intros H.
  destruct (first_raise e 0 packages) as [name|] eqn:Hr.
  - now rewrite (run_required_raises e name H Hr).
  - destruct (first_raise e (List.length packages) optional_packages)
      as [name|] eqn:Ho.
    + now rewrite (run_optional_raises e name H Hr Ho).
    + now rewrite (run_completes e H Hr Ho).
Qed.

(** ** Which prints are banners *)

Lemma lines_of_plain (e : env) (l : list string) :
  forall n s, In s (lines_of e n l) -> is_banner_print s = false.
Proof.
  induction l as [|package rest IH]; intros n s H; simpl in H.
  - contradiction.
  - destruct (attempt e n package) as [rc|name]; [|contradiction].
    destruct H as [<-|H]; [|eapply IH; exact H].
    destruct (rc =? 0); reflexivity.
Qed.

Lemma before_summary_plain (e : env) (s : string) :
  In s (header e ++ required_lines e ++ optional_lines e) ->
  s = banner \/ is_banner_print s = false.
Proof.
  unfold header, required_lines, optional_lines. rewrite !in_app_iff.
  cbn [In]. intros [[<-|[<-|[<-|[]]]]|[[<-|H]|[<-|H]]]; auto;
    right; eapply lines_of_plain; exact H.
Qed.

Lemma status_block_plain (failed : list string) (s : string) :
  In s (status_block failed) -> is_banner_print s = false.
Proof.
  destruct failed as [|f fs]; unfold status_block.
  - unfold success_block. simpl.
    intros [<-|[<-|[<-|[<-|[<-|[<-|[<-|[]]]]]]]]; reflexivity.
  - unfold failure_block. rewrite !in_app_iff, in_map_iff. simpl.
    intros [[<-|[]]|[[x [<- _]]|[<-|[<-|[]]]]]; reflexivity.
Qed.

Lemma run_stdout_prefix (e : env) :
  version_ok e = true ->
  first_raise e 0 (packages ++ optional_packages) <> None ->
  forall s, In s (stdout (snd (run e))) ->
            In s (header e ++ required_lines e ++ optional_lines e).
Proof.
  intros H Hn s. rewrite first_raise_app in Hn.
  destruct (first_raise e 0 packages) as [name|] eqn:Hr.
  - rewrite (run_required_raises e name H Hr). cbn [snd stdout].
    rewrite !in_app_iff. tauto.
  - change (0 + List.length packages)%nat with (List.length packages) in Hn.
    destruct (first_raise e (List.length packages) optional_packages)
      as [name|] eqn:Ho; [|congruence].
    rewrite (run_optional_raises e name H Hr Ho). cbn [snd stdout]. tauto.
Qed.

(** ** The version gate *)

Lemma too_old_iff (v : version_info) :
  too_old v = false <-> major v > 3 \/ (major v = 3 /\ minor v >= 7).
Proof.
  unfold too_old.
  rewrite orb_false_iff, andb_false_iff, Z.ltb_ge, Z.eqb_neq, Z.ltb_ge.
  lia.
Qed.

(** C2: for every interpreter version (major, minor, micro),
    [check_python_version] returns true exactly when major > 3, or
    major = 3 and minor >= 7, and false otherwise; it returns false for
    3.6.9 and true for 3.7.0 and for 4.0.0. *)
Theorem check_python_version_iff (e : env) (w : world) :
  (fst (check_python_version e w) = inl true <->
   major (version e) > 3
   \/ (major (version e) = 3 /\ minor (version e) >= 7))
  /\ (fst (check_python_version e w) = inl false <->
      ~ (major (version e) > 3
         \/ (major (version e) = 3 /\ minor (version e) >= 7)))
  /\ fst (check_python_version (with_version (mk_version 3 6 9) e) w)
     = inl false
  /\ fst (check_python_version (with_version (mk_version 3 7 0) e) w)
     = inl true
  /\ fst (check_python_version (with_version (mk_version 4 0 0) e) w)
     = inl true.
Proof.
  rewrite !check_python_version_eq. cbn [fst]. unfold version_ok.
  pose proof (too_old_iff (version e)) as H.
  repeat split; try reflexivity.
  - intros E. apply H. destruct (too_old (version e)); [discriminate|easy].
  - intros G. apply H in G. now rewrite G.
  - intros E G. apply H in G. rewrite G in E. discriminate.
  - intros G. destruct (too_old (version e)); [reflexivity|].
    exfalso. apply G, H. reflexivity.
Qed.

(** C5: when the version gate fails the script prints the version error
    after the title and the banner, ends with exit status 1, and has made
    no install attempt. *)
Theorem gate_failure_stops_the_run (e : env) :
  version_ok e = false ->
  fst (check_python_version e initial_world) = inl false
  /\ run e =
     (inr (SystemExit 1),
      {| stdout := [title; banner; "Error: Python 3.7 or higher is required"];
         calls := [];
         failed_packages := [] |})
  /\ exit_status (run e) = 1
  /\ List.length (attempts (snd (run e))) = 0%nat.
Proof.
  intros H. rewrite (run_too_old e H), check_python_version_eq, H.
  repeat split.
Qed.

Lemma gate_failure_witness :
  version_ok host_python36 = false
  /\ fst (check_python_version host_python36 initial_world) = inl false
  /\ run host_python36 =
     (inr (SystemExit 1),
      {| stdout := [title; banner; "Error: Python 3.7 or higher is required"];
         calls := [];
         failed_packages := [] |})
  /\ exit_status (run host_python36) = 1
  /\ List.length (attempts (snd (run host_python36))) = 0%nat.
Proof.
  split; [reflexivity|].
  apply (gate_failure_stops_the_run host_python36). reflexivity.
Defined.

(** ** One install *)

(** C6, as the code has it: [install_package] starts one child, with the
    command line that ends in the very specifier it was given.  When the
    child ends with return code 0 it prints the check-mark line and returns
    true; when the child ends with another return code it prints the cross
    line with the rendered error and returns false.  When the child cannot
    be run the error goes to the caller: nothing is printed and no boolean is
    returned. *)
Theorem install_package_outcome (e : env) (package : string) (w : world) :
  calls (snd (install_package e package w))
  = (calls w ++ [[executable e; "-m"; "pip"; "install"; package]])%list
  /\ failed_packages (snd (install_package e package w)) = failed_packages w
  /\ match child e (List.length (calls w))
             [executable e; "-m"; "pip"; "install"; package] with
     | Exited rc =>
         if rc =? 0 then
           fst (install_package e package w) = inl true
           /\ stdout (snd (install_package e package w))
              = (stdout w
                   ++ [("✓ Successfully installed " ++ package)%string])%list
         else
           fst (install_package e package w) = inl false
           /\ stdout (snd (install_package e package w))
              = (stdout w
                   ++ [("✗ Failed to install " ++ package ++ ": "
                          ++ str_error e rc
                               [executable e; "-m"; "pip"; "install"; package])%string])%list
     | SpawnError name =>
         fst (install_package e package w) = inr (OtherError name)
         /\ stdout (snd (install_package e package w)) = stdout w
     end.
Proof.
  rewrite install_package_eq. unfold attempt, pip_argv.
  destruct (child e (List.length (calls w))
              [executable e; "-m"; "pip"; "install"; package]) as [rc|name].
  - destruct (rc =? 0); repeat split.
  - repeat split.
Qed.

(** C6 as stated fails: on a host where the child cannot be started,
    [install_package] delivers no boolean, it raises. *)
Lemma install_package_raises :
  fst (install_package host_numpy_raises "numpy>=1.21.0" initial_world)
  = inr (OtherError "FileNotFoundError")
  /\ ~ (exists b : bool,
          fst (install_package host_numpy_raises "numpy>=1.21.0" initial_world)
          = inl b).
Proof.
  split; [reflexivity|]. intros [b H]. discriminate H.
Qed.

(** C9: [install_package] catches the non-zero return code and nothing
    else.  An error of running the child leaves [install_package] as an
    exception, with nothing printed; in a run that passed the gate it reaches
    the top level: the run ends with that exception and exit status 1, the
    install that raised is the last one attempted, and the summary is never
    printed. *)
Theorem other_errors_escape (e : env) :
  (forall package w name,
      attempt e (List.length (calls w)) package = SpawnError name ->
      install_package e package w =
      (inr (OtherError name),
       {| stdout := stdout w;
          calls := calls w ++ [pip_argv e package];
          failed_packages := failed_packages w |}))
  /\ (forall package w rc,
         attempt e (List.length (calls w)) package = Exited rc ->
         exists b : bool, fst (install_package e package w) = inl b)
  /\ (forall name,
         version_ok e = true ->
         first_raise e 0 (packages ++ optional_packages) = Some name ->
         fst (run e) = inr (OtherError name)
         /\ exit_status (run e) = 1
         /\ attempts (snd (run e)) = reached e 0 (packages ++ optional_packages)
         /\ (exists package,
                nth_error (packages ++ optional_packages)
                  (List.length (attempts (snd (run e))) - 1) = Some package
                /\ attempt e (List.length (attempts (snd (run e))) - 1) package
                   = SpawnError name)
         /\ ~ In (nl ++ banner) (stdout (snd (run e)))).
Proof.
  split; [|split].
  - intros package w name Ha. rewrite install_package_eq, Ha. reflexivity.
  - intros package w rc Ha. rewrite install_package_eq, Ha.
    destruct (rc =? 0); eexists; reflexivity.
  - intros name H Hr.
    pose proof (run_attempts e H) as Hatt.
    split; [|split; [|split; [|split]]].
    + rewrite (run_result e H), Hr. reflexivity.
    + unfold exit_status. rewrite (run_result e H), Hr. reflexivity.
    + exact Hatt.
    + rewrite Hatt.
      destruct (reached_short e _ 0 name Hr) as [_ [package [Hn Ha]]].
      exists package. split; [exact Hn|exact Ha].
    + intros Hin.
      apply (run_stdout_prefix e H) in Hin; [|congruence].
      apply before_summary_plain in Hin.
      destruct Hin as [Hin|Hin]; discriminate Hin.
Qed.

Lemma other_errors_escape_witness :
  attempt host_tensorflow_raises 5 "tensorflow>=2.8.0"
  = SpawnError "FileNotFoundError"
  /\ version_ok host_tensorflow_raises = true
  /\ first_raise host_tensorflow_raises 0 (packages ++ optional_packages)
     = Some "FileNotFoundError"
  /\ fst (run host_tensorflow_raises) = inr (OtherError "FileNotFoundError")
  /\ exit_status (run host_tensorflow_raises) = 1
  /\ ~ In (nl ++ banner) (stdout (snd (run host_tensorflow_raises))).
Proof.
  split; [reflexivity|]. split; [reflexivity|]. split; [reflexivity|].
  destruct (other_errors_escape host_tensorflow_raises) as [_ [_ H]].
  destruct (H "FileNotFoundError" eq_refl eq_refl) as [H1 [H2 [_ [_ H3]]]].
  split; [exact H1|]. split; [exact H2|exact H3].
Defined.

(** ** The exit status *)

Lemma exit_status_eq (e : env) :
  version_ok e = true ->
  exit_status (run e) =
  if all_succeed e 0 packages
     && match first_raise e (List.length packages) optional_packages with
        | None => true
        | Some _ => false
        end
  then 0 else 1.
Proof.
  intros H. unfold exit_status. rewrite (run_result e H), first_raise_app.
  change (0 + List.length packages)%nat with (List.length packages).
  pose proof (all_succeed_iff e packages 0) as Hall.
  destruct (first_raise e 0 packages) as [name|] eqn:Hr.
  - destruct (all_succeed e 0 packages); [|reflexivity].
    destruct Hall as [Hall _]. destruct (Hall eq_refl). discriminate.
  - destruct (failed_of e 0 packages) as [|f fs] eqn:Hf.
    + destruct Hall as [_ Hall]. rewrite (Hall (conj eq_refl eq_refl)).
      now destruct (first_raise e (List.length packages) optional_packages).
    + destruct (all_succeed e 0 packages).
      * destruct Hall as [Hall _]. destruct (Hall eq_refl). discriminate.
      * now destruct (first_raise e (List.length packages) optional_packages).
Qed.

(** C1 as stated fails: on this host the gate passes and every required
    install succeeds, yet the exit status is not 0, because the first
    optional install raises. *)
Lemma exit_status_not_by_required_alone :
  version_ok host_tensorflow_raises = true
  /\ all_succeed host_tensorflow_raises 0 packages = true
  /\ exit_status (run host_tensorflow_raises) = 1
  /\ ~ (exit_status (run host_tensorflow_raises) = 0 <->
        all_succeed host_tensorflow_raises 0 packages = true).
Proof.
  split; [reflexivity|]. split; [reflexivity|]. split; [reflexivity|].
  intros [_ H]. specialize (H eq_refl). vm_compute in H. discriminate H.
Qed.

(** C1, as the code has it: when the gate passes, the exit status is 0
    exactly when every required install succeeded and no optional install
    raised an error other than a non-zero return code; the return codes of
    the optional installs play no part.  A required install that did not
    succeed makes the exit status 1, and so does a gate that fails; there is
    no other exit status. *)
Theorem exit_status_of_run (e : env) :
  (version_ok e = true ->
   (exit_status (run e) = 0 <->
    all_succeed e 0 packages = true
    /\ first_raise e (List.length packages) optional_packages = None))
  /\ (version_ok e = true ->
      all_succeed e 0 packages = false ->
      exit_status (run e) = 1)
  /\ (version_ok e = false -> exit_status (run e) = 1)
  /\ (exit_status (run e) = 0 \/ exit_status (run e) = 1).
Proof.
  split; [|split; [|split]].
  - intros H. rewrite (exit_status_eq e H).
    destruct (all_succeed e 0 packages);
      destruct (first_raise e (List.length packages) optional_packages);
      cbn [andb]; split; try discriminate; try tauto;
      intros [? ?]; discriminate.
  - intros H Hf. rewrite (exit_status_eq e H), Hf. reflexivity.
  - intros H. now rewrite (run_too_old e H).
  - destruct (version_ok e) eqn:H.
    + rewrite (exit_status_eq e H).
      destruct (_ && _); [now left|now right].
    + right. now rewrite (run_too_old e H).
Qed.

Lemma exit_status_of_run_witness :
  version_ok host_keras_fails = true
  /\ all_succeed host_keras_fails 0 packages = true
  /\ first_raise host_keras_fails (List.length packages) optional_packages
     = None
  /\ exit_status (run host_keras_fails) = 0
  /\ version_ok host_pandas_fails = true
  /\ all_succeed host_pandas_fails 0 packages = false
  /\ exit_status (run host_pandas_fails) = 1
  /\ version_ok host_python36 = false
  /\ exit_status (run host_python36) = 1.
Proof.
  split; [reflexivity|]. split; [reflexivity|]. split; [reflexivity|].
  split.
  { destruct (exit_status_of_run host_keras_fails) as [H _].
    apply (H eq_refl). split; reflexivity. }
  split; [reflexivity|]. split; [reflexivity|].
  split.
  { destruct (exit_status_of_run host_pandas_fails) as [_ [H _]].
    apply H; reflexivity. }
  split; [reflexivity|].
  destruct (exit_status_of_run host_python36) as [_ [_ [H _]]].
  apply H; reflexivity.
Defined.

(** ** The order of the installs *)

(** C4 as stated fails: on this host the gate passes and the only install
    attempted is the first. *)
Lemma attempts_can_stop_early :
  version_ok host_numpy_raises = true
  /\ attempts (snd (run host_numpy_raises)) = ["numpy>=1.21.0"]
  /\ attempts (snd (run host_numpy_raises))
     <> (packages ++ optional_packages)%list.
Proof.
  split; [reflexivity|]. split; [reflexivity|].
  intros H. discriminate H.
Qed.

(** C4, as the code has it: in every run that passes the gate the installs
    attempted are, in order and without repetition, a beginning of the
    required list followed by the optional list; they are the whole of it
    when no install raises an error other than a non-zero return code, and
    otherwise they end with the first install that raises. *)
Theorem attempts_follow_declared_order (e : env) :
  version_ok e = true ->
  (exists rest,
      (packages ++ optional_packages)%list
      = (attempts (snd (run e)) ++ rest)%list)
  /\ attempts (snd (run e)) = reached e 0 (packages ++ optional_packages)
  /\ (first_raise e 0 (packages ++ optional_packages) = None ->
      attempts (snd (run e)) = (packages ++ optional_packages)%list)
  /\ (forall name,
         first_raise e 0 (packages ++ optional_packages) = Some name ->
         exists package,
           nth_error (packages ++ optional_packages)
             (List.length (attempts (snd (run e))) - 1) = Some package
           /\ attempt e (List.length (attempts (snd (run e))) - 1) package
              = SpawnError name).
Proof.
  intros H. rewrite (run_attempts e H).
  split; [apply reached_prefix|]. split; [reflexivity|]. split.
  - apply reached_all.
  - intros name Hr.
    destruct (reached_short e _ 0 name Hr) as [_ Hp]. exact Hp.
Qed.

Lemma attempts_follow_declared_order_witness :
  version_ok host_pandas_fails = true
  /\ first_raise host_pandas_fails 0 (packages ++ optional_packages) = None
  /\ attempts (snd (run host_pandas_fails))
     = (packages ++ optional_packages)%list.
Proof.
  split; [reflexivity|]. split; [reflexivity|].
  destruct (attempts_follow_declared_order host_pandas_fails eq_refl)
    as [_ [_ [H _]]].
  apply H. reflexivity.
Defined.

(** ** The required pass *)

Lemma attempts_app (w : world) (e : env) (l : list string) :
  map (fun args => nth 4 args EmptyString)
    (calls w ++ map (pip_argv e) l)
  = (attempts w ++ l)%list.
Proof.
  unfold attempts. rewrite map_app. now rewrite attempts_of_argv.
Qed.

(** C3 as stated fails: on this host the first required install raises, the
    loop stops there and the other four required specifiers are never
    attempted. *)
Lemma required_pass_can_stop_early :
  fst (required_pass host_numpy_raises initial_world)
  = inr (OtherError "FileNotFoundError")
  /\ attempts (snd (required_pass host_numpy_raises initial_world))
     = ["numpy>=1.21.0"]
  /\ ~ incl packages
         (attempts (snd (required_pass host_numpy_raises initial_world))).
Proof.
  split; [reflexivity|]. split; [reflexivity|].
  intros H. specialize (H "pandas>=1.3.0").
  destruct H as [H|[]].
  - simpl. right. right. left. reflexivity.
  - discriminate H.
Qed.

(** C3, as the code has it: when no required install raises an error other
    than a non-zero return code, the required pass attempts every required
    specifier in order and leaves in [failed_packages] exactly the
    subsequence, in the order of the list, of those whose install did not
    succeed.  When no optional install raises either and that subsequence is
    not empty, the run ends by printing all of it in one block, one line
    each between the heading and the advice, and exits with 1. *)
Theorem required_pass_collects_failures (e : env) :
  (forall w,
      first_raise e (List.length (calls w)) packages = None ->
      fst (required_pass e w) = inl tt
      /\ failed_packages (snd (required_pass e w))
         = failed_subsequence e (List.length (calls w)) packages
      /\ attempts (snd (required_pass e w)) = (attempts w ++ packages)%list)
  /\ (version_ok e = true ->
      first_raise e 0 (packages ++ optional_packages) = None ->
      failed_packages (snd (run e)) = failed_subsequence e 0 packages
      /\ (failed_subsequence e 0 packages <> [] ->
          fst (run e) = inr (SystemExit 1)
          /\ exists before,
               stdout (snd (run e))
               = (before
                    ++ ["⚠️  Some required packages failed to install:"]
                    ++ map (fun package => ("   - " ++ package)%string)
                         (failed_subsequence e 0 packages)
                    ++ [(nl ++ "The ML models may not work properly without these packages.")%string;
                        "Please install them manually or check your Python environment."])%list)).
Proof.
  split.
  - intros w Hr. rewrite required_pass_eq. cbn [fst snd failed_packages].
    unfold loop_result. rewrite Hr.
    split; [reflexivity|]. split.
    + now apply failed_of_subsequence.
    + unfold attempts at 1. cbn [calls].
      rewrite (reached_all e packages _ Hr). apply attempts_app.
  - intros H Hn. rewrite first_raise_app in Hn.
    change (0 + List.length packages)%nat with (List.length packages) in Hn.
    destruct (first_raise e 0 packages) as [name|] eqn:Hr; [discriminate|].
    rewrite (run_completes e H Hr Hn). cbn [fst snd failed_packages stdout].
    rewrite (failed_of_subsequence e packages 0 Hr).
    split; [reflexivity|]. intros Hne.
    destruct (failed_subsequence e 0 packages) as [|f fs] eqn:Hf;
      [congruence|].
    split; [reflexivity|].
    exists (header e ++ required_lines e ++ optional_lines e
              ++ [(nl ++ banner)%string])%list.
    unfold status_block, failure_block.
    rewrite <- !app_assoc. reflexivity.
Qed.

Lemma required_pass_collects_failures_witness :
  first_raise host_pandas_fails 0 packages = None
  /\ failed_packages (snd (required_pass host_pandas_fails initial_world))
     = ["pandas>=1.3.0"]
  /\ attempts (snd (required_pass host_pandas_fails initial_world)) = packages
  /\ version_ok host_pandas_fails = true
  /\ first_raise host_pandas_fails 0 (packages ++ optional_packages) = None
  /\ fst (run host_pandas_fails) = inr (SystemExit 1).
Proof.
  destruct (required_pass_collects_failures host_pandas_fails) as [H1 H2].
  destruct (H1 initial_world eq_refl) as [_ [Hf Ha]].
  destruct (H2 eq_refl eq_refl) as [_ Hb].
  split; [reflexivity|]. split; [exact Hf|]. split; [exact Ha|].
  split; [reflexivity|]. split; [reflexivity|].
  apply Hb. discriminate.
Defined.

(** ** The optional pass *)

Lemma agree_on_range (e1 e2 : env) (l : list string) :
  executable e1 = executable e2 ->
  (forall rc cmd, str_error e1 rc cmd = str_error e2 rc cmd) ->
  forall n,
    (forall i args,
        (n <= i < n + List.length l)%nat -> child e1 i args = child e2 i args) ->
    first_raise e1 n l = first_raise e2 n l
    /\ failed_of e1 n l = failed_of e2 n l
    /\ lines_of e1 n l = lines_of e2 n l.
Proof.
  intros Hx Hs.
  induction l as [|package rest IH]; intros n Hc; simpl.
  - repeat split.
  - assert (Ha : attempt e1 n package = attempt e2 n package).
    { unfold attempt, pip_argv. rewrite Hx. apply Hc. simpl. lia. }
    destruct (IH (S n)) as [H1 [H2 H3]].
    { intros i args Hi. apply Hc. simpl. lia. }
    rewrite Ha. destruct (attempt e2 n package) as [rc|name].
    + unfold failed_line, pip_argv. rewrite Hx, Hs, H1, H2, H3.
      repeat split.
    + repeat split.
Qed.

(** C7 as stated fails: these two hosts differ in the fate of the first
    optional install only, which succeeds on one and raises on the other,
    and the two runs end with different exit statuses. *)
Lemma optional_outcome_can_change_exit_status :
  version host_all_ok = version host_tensorflow_raises
  /\ (forall i args,
         (i < List.length packages)%nat ->
         child host_all_ok i args = child host_tensorflow_raises i args)
  /\ exit_status (run host_all_ok) = 0
  /\ exit_status (run host_tensorflow_raises) = 1
  /\ exit_status (run host_all_ok) <> exit_status (run host_tensorflow_raises).
Proof.
  split; [reflexivity|]. split.
  - intros i args Hi. simpl in Hi. unfold host_all_ok, host_tensorflow_raises.
    cbn [child example_host]. unfold raises_at.
    destruct (Nat.eqb_spec i 5) as [->|_]; [lia|reflexivity].
  - split; [reflexivity|]. split; [reflexivity|].
    intros H. vm_compute in H. discriminate H.
Qed.

(** C7, as the code has it: the optional pass never changes
    [failed_packages], on any host and from any state of the run, also when
    one of its installs raises.  Of two runs that pass the gate on hosts that
    differ in the fates of the optional installs only, and in which no
    optional install raises an error other than a non-zero return code, both
    end the same way, with the same exit status and the same
    [failed_packages]; when they reach the optional pass their outputs are
    the same text before it, the per-package lines of the optional installs,
    and the same banner and status block after it. *)
Theorem optional_outcomes_are_framed :
  (forall e w,
      failed_packages (snd (optional_pass e w)) = failed_packages w)
  /\ (forall e1 e2,
         version e1 = version e2 ->
         executable e1 = executable e2 ->
         (forall rc cmd, str_error e1 rc cmd = str_error e2 rc cmd) ->
         (forall i args,
             (i < List.length packages)%nat ->
             child e1 i args = child e2 i args) ->
         version_ok e1 = true ->
         first_raise e1 (List.length packages) optional_packages = None ->
         first_raise e2 (List.length packages) optional_packages = None ->
         fst (run e1) = fst (run e2)
         /\ exit_status (run e1) = exit_status (run e2)
         /\ failed_packages (snd (run e1)) = failed_packages (snd (run e2))
         /\ (first_raise e1 0 packages = None ->
             exists before block,
               stdout (snd (run e1))
               = (before
                    ++ lines_of e1 (List.length packages) optional_packages
                    ++ block)%list
               /\ stdout (snd (run e2))
                  = (before
                       ++ lines_of e2 (List.length packages) optional_packages
                       ++ block)%list
               /\ block
                  = ((nl ++ banner)%string
                       :: status_block (failed_packages (snd (run e1))))%list)).
Proof.
  split.
  { intros e w. rewrite optional_pass_eq. reflexivity. }
  intros e1 e2 Hv Hx Hs Hc H1 Ho1 Ho2.
  assert (H2 : version_ok e2 = true).
  { unfold version_ok in *. now rewrite <- Hv. }
  destruct (agree_on_range e1 e2 packages Hx Hs 0) as [Hr [Hf Hl]].
  { intros i args Hi. apply Hc. lia. }
  assert (Hfst : fst (run e1) = fst (run e2)).
  { rewrite (run_result e1 H1), (run_result e2 H2), !first_raise_app.
    change (0 + List.length packages)%nat with (List.length packages).
    rewrite Ho1, Ho2, Hr, Hf. reflexivity. }
  split; [|split; [|split]].
  - exact Hfst.
  - unfold exit_status. now rewrite Hfst.
  - rewrite (run_failed_packages e1 H1), (run_failed_packages e2 H2).
    exact Hf.
  - intros Hr1. assert (Hr2 : first_raise e2 0 packages = None) by congruence.
    exists (header e1 ++ required_lines e1
              ++ [(nl ++ "Installing optional packages...")%string])%list.
    exists ((nl ++ banner)%string
              :: status_block (failed_packages (snd (run e1))))%list.
    rewrite (run_completes e1 H1 Hr1 Ho1), (run_completes e2 H2 Hr2 Ho2).
    cbn [snd stdout failed_packages].
    unfold header, required_lines, optional_lines.
    rewrite <- Hv, <- Hl, <- Hf, <- !app_assoc.
    repeat split.
Qed.

Lemma optional_outcomes_are_framed_witness :
  failed_packages
    (snd (optional_pass host_numpy_raises
            {| stdout := []; calls := []; failed_packages := ["pandas>=1.3.0"] |}))
  = ["pandas>=1.3.0"]
  /\ version host_all_ok = version host_keras_fails
  /\ version_ok host_all_ok = true
  /\ first_raise host_all_ok (List.length packages) optional_packages = None
  /\ first_raise host_keras_fails (List.length packages) optional_packages
     = None
  /\ fst (run host_all_ok) = fst (run host_keras_fails)
  /\ exit_status (run host_all_ok) = exit_status (run host_keras_fails)
  /\ failed_packages (snd (run host_all_ok))
     = failed_packages (snd (run host_keras_fails)).
Proof.
  destruct optional_outcomes_are_framed as [Hframe Hruns].
  split; [apply Hframe|].
  split; [reflexivity|]. split; [reflexivity|]. split; [reflexivity|].
  split; [reflexivity|].
  assert (Hc : forall i args,
             (i < List.length packages)%nat ->
             child host_all_ok i args = child host_keras_fails i args).
  { intros i args Hi. simpl in Hi. unfold host_all_ok, host_keras_fails.
    cbn [child example_host]. unfold exits_at.
    destruct (Nat.eqb_spec i 6) as [->|_]; [lia|reflexivity]. }
  destruct (Hruns host_all_ok host_keras_fails
              eq_refl eq_refl (fun _ _ => eq_refl) Hc eq_refl eq_refl eq_refl)
    as [Ha [Hb [Hd _]]].
  split; [exact Ha|]. split; [exact Hb|exact Hd].
Defined.

(** ** The printed text *)

Lemma run_stdout_head (e : env) :
  exists rest, stdout (snd (run e)) = title :: banner :: rest.
Proof.
  destruct (version_ok e) eqn:H.
  - destruct (first_raise e 0 packages) as [name|] eqn:Hr.
    + rewrite (run_required_raises e name H Hr). eexists. reflexivity.
    + destruct (first_raise e (List.length packages) optional_packages)
        as [name|] eqn:Ho.
      * rewrite (run_optional_raises e name H Hr Ho). eexists. reflexivity.
      * rewrite (run_completes e H Hr Ho). eexists. reflexivity.
  - rewrite (run_too_old e H). eexists. reflexivity.
Qed.

Lemma banner_prints (e : env) (s : string) :
  In s (stdout (snd (run e))) ->
  is_banner_print s = true ->
  s = banner \/ s = nl ++ banner.
Proof.
  intros Hin Hb.
  destruct (version_ok e) eqn:H.
  - destruct (first_raise e 0 (packages ++ optional_packages))
      as [name|] eqn:Hn.
    + apply (run_stdout_prefix e H) in Hin; [|congruence].
      apply before_summary_plain in Hin. destruct Hin as [Hin|Hin];
        [now left|congruence].
    + rewrite first_raise_app in Hn.
      change (0 + List.length packages)%nat with (List.length packages) in Hn.
      destruct (first_raise e 0 packages) as [name|] eqn:Hr; [discriminate|].
      rewrite (run_completes e H Hr Hn) in Hin. cbn [snd stdout] in Hin.
      rewrite !app_assoc in Hin. apply in_app_or in Hin.
      destruct Hin as [Hin|[Hin|Hin]].
      * rewrite <- app_assoc in Hin. apply before_summary_plain in Hin.
        destruct Hin as [Hin|Hin]; [now left|congruence].
      * now right.
      * apply status_block_plain in Hin. congruence.
  - rewrite (run_too_old e H) in Hin. cbn [snd stdout In] in Hin.
    destruct Hin as [<-|[<-|[<-|[]]]]; try discriminate Hb. now left.
Qed.

Lemma all_succeed_none_raise (e : env) (n : nat) (l : list string) :
  all_succeed e n l = true -> first_raise e n l = None.
Proof. intros H. now apply all_succeed_iff in H. Qed.

(** C8: in every run the second print is the banner and every print that
    shows a banner shows, after its blank line if any, exactly the banner:
    forty characters, each of them [=].  In a fully successful run the
    output ends with the summary banner and the closing block; that block
    lists exactly three file names and ends with the two prints of the
    verification command. *)
Theorem banners_and_closing_block (e : env) :
  String.length banner = 40%nat
  /\ (forall c, In c (list_ascii_of_string banner) -> c = "="%char)
  /\ nth_error (stdout (snd (run e))) 1 = Some banner
  /\ (forall s,
         In s (stdout (snd (run e))) ->
         is_banner_print s = true ->
         skip_newlines s = banner)
  /\ (version_ok e = true ->
      all_succeed e 0 packages = true ->
      all_succeed e (List.length packages) optional_packages = true ->
      exists before,
        stdout (snd (run e))
        = (before ++ (nl ++ banner)%string :: success_block)%list)
  /\ named_files success_block
     = ["air_quality_predictor.pkl";
        "healthcare_priority_model.h5";
        "healthcare_scaler.pkl"]
  /\ exists listing,
       success_block
       = (listing
            ++ [(nl ++ "To test the installation, run:")%string;
                ("   python -c " ++ dq
                   ++ "import sklearn, numpy, pandas; print('ML dependencies ready!')"
                   ++ dq)%string])%list
       /\ named_files listing = named_files success_block.
Proof.
  split; [reflexivity|]. split.
  { intros c Hc. vm_compute in Hc.
    repeat (destruct Hc as [<-|Hc]; [reflexivity|]). contradiction. }
  split.
  { destruct (run_stdout_head e) as [rest ->]. reflexivity. }
  split.
  { intros s Hin Hb. destruct (banner_prints e s Hin Hb) as [->| ->];
      reflexivity. }
  split.
  { intros H Hr Ho.
    pose proof (all_succeed_none_raise e _ _ Ho) as Ho'.
    apply all_succeed_iff in Hr. destruct Hr as [Hr Hf].
    rewrite (run_completes e H Hr Ho'). cbn [snd stdout]. rewrite Hf.
    exists (header e ++ required_lines e ++ optional_lines e)%list.
    rewrite <- !app_assoc. reflexivity. }
  split; [reflexivity|].
  exists (firstn 5 success_block). split; reflexivity.
Qed.

Lemma banners_and_closing_block_witness :
  version_ok host_all_ok = true
  /\ all_succeed host_all_ok 0 packages = true
  /\ all_succeed host_all_ok (List.length packages) optional_packages = true
  /\ exists before,
       stdout (snd (run host_all_ok))
       = (before ++ (nl ++ banner)%string :: success_block)%list.
Proof.
  split; [reflexivity|]. split; [reflexivity|]. split; [reflexivity|].
  destruct (banners_and_closing_block host_all_ok) as [_ [_ [_ [_ [H _]]]]].
  apply H; reflexivity.
Defined.

(** ** The environment marker *)

Lemma run_calls (e : env) :
  version_ok e = true ->
  calls (snd (run e))
  = map (pip_argv e) (reached e 0 (packages ++ optional_packages)).
Proof.
  intros H. rewrite reached_app.
  change (0 + List.length packages)%nat with (List.length packages).
  destruct (first_raise e 0 packages) as [name|] eqn:Hr.
  - now rewrite (run_required_raises e name H Hr).
  - destruct (first_raise e (List.length packages) optional_packages)
      as [name|] eqn:Ho.
    + now rewrite (run_optional_raises e name H Hr Ho).
    + rewrite (run_completes e H Hr Ho). cbn [snd calls].
      now rewrite (reached_all e optional_packages _ Ho).
Qed.

Lemma failed_of_app (e : env) (l1 l2 : list string) :
  forall n,
    first_raise e n l1 = None ->
    failed_of e n (l1 ++ l2)
    = (failed_of e n l1 ++ failed_of e (n + List.length l1) l2)%list.
Proof.
  induction l1 as [|package rest IH]; intros n H; simpl in *.
  - now rewrite Nat.add_0_r.
  - destruct (attempt e n package) as [rc|name]; [|discriminate].
    rewrite (IH (S n) H), Nat.add_succ_r.
    now destruct (rc =? 0).
Qed.

(** C10 as stated fails: on this host the gate passes and the pickle5 entry
    never reaches the package manager, because the first install raises and
    ends the run. *)
Lemma marker_entry_can_go_unpassed :
  version_ok host_numpy_raises = true
  /\ nth_error (calls (snd (run host_numpy_raises))) 4 = None
  /\ ~ In pickle5 (attempts (snd (run host_numpy_raises))).
Proof.
  split; [reflexivity|]. split; [reflexivity|].
  intros H. vm_compute in H. destruct H as [H|[]]. discriminate H.
Qed.

(** C10, as the code has it: the script never looks at the marker of the
    pickle5 entry.  On every interpreter version that passes the gate, a
    fifth child, if one is started, is started with the entry as its last
    argument, marker and all, and it is started whenever none of the four
    installs before it raised an error other than a non-zero return code.
    When the install of the entry does not succeed the exit status is 1, and
    when it is made and ends with a non-zero return code the entry is
    recorded in [failed_packages].  The commands, the failures recorded and
    the exit status are the same under any other version that passes the
    gate. *)
Theorem marker_is_passed_verbatim (e : env) :
  version_ok e = true ->
  (forall args,
      nth_error (calls (snd (run e))) 4 = Some args ->
      args = [executable e; "-m"; "pip"; "install";
              "pickle5>=0.0.11; python_version<'3.8'"])
  /\ (first_raise e 0 (firstn 4 packages) = None ->
      nth_error (calls (snd (run e))) 4
      = Some [executable e; "-m"; "pip"; "install";
              "pickle5>=0.0.11; python_version<'3.8'"])
  /\ (succeeded (attempt e 4 pickle5) = false -> exit_status (run e) = 1)
  /\ (first_raise e 0 (firstn 4 packages) = None ->
      forall rc,
        attempt e 4 pickle5 = Exited rc ->
        rc <> 0 ->
        In pickle5 (failed_packages (snd (run e))))
  /\ (forall v,
         version_ok (with_version v e) = true ->
         calls (snd (run (with_version v e))) = calls (snd (run e))
         /\ failed_packages (snd (run (with_version v e)))
            = failed_packages (snd (run e))
         /\ exit_status (run (with_version v e)) = exit_status (run e)).
Proof.
  intros H. split; [|split; [|split; [|split]]].
  - intros args Hn. rewrite (run_calls e H), nth_error_map in Hn.
    destruct (nth_error (reached e 0 (packages ++ optional_packages)) 4)
      as [package|] eqn:Hp; [|discriminate Hn].
    cbn [option_map] in Hn. injection Hn as <-.
    destruct (reached_prefix e (packages ++ optional_packages) 0)
      as [rest Hl].
    assert (Hq : nth_error (packages ++ optional_packages) 4 = Some package).
    { rewrite Hl. rewrite nth_error_app1; [exact Hp|].
      apply nth_error_Some. congruence. }
    cbn in Hq. injection Hq as <-. reflexivity.
  - intros Hr. rewrite (run_calls e H).
    change (packages ++ optional_packages)%list
      with (firstn 4 packages ++ pickle5 :: optional_packages)%list.
    rewrite reached_app, Hr. reflexivity.
  - intros Hs. rewrite (exit_status_eq e H).
    replace (all_succeed e 0 packages) with false; [reflexivity|].
    unfold all_succeed. cbn [packages List.length seq combine forallb fst snd].
    fold pickle5. rewrite Hs. cbn [andb]. now rewrite !andb_false_r.
  - intros Hr rc Ha Hrc. rewrite (run_failed_packages e H).
    change packages with (firstn 4 packages ++ [pickle5])%list.
    rewrite (failed_of_app e _ _ 0 Hr). apply in_or_app. right.
    cbn [firstn packages List.length Nat.add failed_of]. rewrite Ha.
    apply Z.eqb_neq in Hrc. rewrite Hrc. now left.
  - intros v Hv. split; [|split].
    + rewrite (run_calls (with_version v e) Hv), (run_calls e H).
      reflexivity.
    + rewrite (run_failed_packages (with_version v e) Hv),
        (run_failed_packages e H).
      reflexivity.
    + rewrite (exit_status_eq (with_version v e) Hv), (exit_status_eq e H).
      reflexivity.
Qed.

Lemma marker_is_passed_verbatim_witness :
  version_ok host_pickle5_fails = true
  /\ first_raise host_pickle5_fails 0 (firstn 4 packages) = None
  /\ nth_error (calls (snd (run host_pickle5_fails))) 4
     = Some ["/usr/bin/python3"; "-m"; "pip"; "install";
             "pickle5>=0.0.11; python_version<'3.8'"]
  /\ succeeded (attempt host_pickle5_fails 4 pickle5) = false
  /\ exit_status (run host_pickle5_fails) = 1
  /\ In pickle5 (failed_packages (snd (run host_pickle5_fails))).
Proof.
  destruct (marker_is_passed_verbatim host_pickle5_fails eq_refl)
    as [_ [H1 [H2 [H3 _]]]].
  split; [reflexivity|]. split; [reflexivity|].
  split; [apply H1; reflexivity|].
  split; [reflexivity|]. split; [apply H2; reflexivity|].
  apply (H3 eq_refl 1); [reflexivity|discriminate].
Defined.

(** ** Further properties: the commands a run starts *)

Lemma reached_incl (e : env) (l : list string) :
  forall n package, In package (reached e n l) -> In package l.
Proof.
  intros n package H. destruct (reached_prefix e l n) as [rest Hl].
  rewrite Hl. apply in_or_app. now left.
Qed.

Lemma reached_length (e : env) (l : list string) :
  forall n, (List.length (reached e n l) <= List.length l)%nat.
Proof.
  intros n. destruct (reached_prefix e l n) as [rest Hl].
  rewrite Hl at 2. rewrite length_app. lia.
Qed.

(** X1: whatever the host does, every child process a run starts is the
    interpreter itself with the arguments [-m pip install] and one of the
    nine specifiers written in [main]; a run starts at most nine children,
    and none at all when the version gate fails. *)
Theorem only_pip_installs_are_started (e : env) :
  (forall args,
      In args (calls (snd (run e))) ->
      exists package,
        In package (packages ++ optional_packages)
        /\ args = [executable e; "-m"; "pip"; "install"; package])
  /\ (List.length (calls (snd (run e))) <= 9)%nat
  /\ (version_ok e = false -> calls (snd (run e)) = []).
Proof.
  destruct (version_ok e) eqn:H.
  - rewrite (run_calls e H). split; [|split].
    + intros args Hin. apply in_map_iff in Hin.
      destruct Hin as [package [<- Hin]]. exists package.
      split; [eapply reached_incl; exact Hin|reflexivity].
    + rewrite length_map.
      apply (reached_length e (packages ++ optional_packages) 0).
    + discriminate.
  - rewrite (run_too_old e H). cbn [snd calls]. split; [|split].
    + intros args [].
    + simpl. lia.
    + reflexivity.
Qed.

Lemma only_pip_installs_are_started_witness :
  In ["/usr/bin/python3"; "-m"; "pip"; "install"; "keras>=2.8.0"]
    (calls (snd (run host_keras_fails)))
  /\ (exists package,
         In package (packages ++ optional_packages)
         /\ ["/usr/bin/python3"; "-m"; "pip"; "install"; "keras>=2.8.0"]
            = [executable host_keras_fails; "-m"; "pip"; "install"; package])
  /\ version_ok host_python36 = false
  /\ calls (snd (run host_python36)) = [].
Proof.
  assert (Hin : In ["/usr/bin/python3"; "-m"; "pip"; "install"; "keras>=2.8.0"]
                  (calls (snd (run host_keras_fails)))).
  { vm_compute. do 6 right. left. reflexivity. }
  split; [exact Hin|]. split.
  { destruct (only_pip_installs_are_started host_keras_fails) as [H _].
    exact (H _ Hin). }
  split; [reflexivity|].
  destruct (only_pip_installs_are_started host_python36) as [_ [_ H]].
  apply H. reflexivity.
Defined.

(** ** Further properties: what [failed_packages] can hold *)

Lemma failed_of_sound (e : env) (l : list string) :
  forall n package,
    In package (failed_of e n l) ->
    exists i rc,
      nth_error l i = Some package
      /\ attempt e (n + i) package = Exited rc
      /\ rc <> 0.
Proof.
  induction l as [|p rest IH]; intros n package H; simpl in H.
  - contradiction.
  - destruct (attempt e n p) as [rc|name] eqn:Ha; [|contradiction].
    destruct (rc =? 0) eqn:Hrc.
    + destruct (IH (S n) package H) as [i [rc' [Hi [Hat Hne]]]].
      exists (S i), rc'. rewrite Nat.add_succ_r. auto.
    + destruct H as [<-|H].
      * exists 0%nat, rc. rewrite Nat.add_0_r.
        apply Z.eqb_neq in Hrc. auto.
      * destruct (IH (S n) package H) as [i [rc' [Hi [Hat Hne]]]].
        exists (S i), rc'. rewrite Nat.add_succ_r. auto.
Qed.

Lemma failed_of_NoDup (e : env) (l : list string) :
  NoDup l -> forall n, NoDup (failed_of e n l).
Proof.
  induction 1 as [|p rest Hp Hnd IH]; intros n; simpl.
  - constructor.
  - destruct (attempt e n p) as [rc|name]; [|constructor].
    destruct (rc =? 0); [apply IH|].
    constructor; [|apply IH].
    intros Hin. apply Hp. eapply failed_of_incl. exact Hin.
Qed.

Lemma packages_NoDup : NoDup packages.
Proof.
  unfold packages.
  repeat (constructor;
          [cbn [In]; intros H;
           repeat (destruct H as [H|H]; [discriminate H|]); exact H|]).
  constructor.
Qed.

Lemma required_not_optional (package : string) :
  In package packages -> ~ In package optional_packages.
Proof.
  unfold packages, optional_packages. cbn [In].
  intros H G.
  repeat (destruct H as [H|H];
          [subst package;
           repeat (destruct G as [G|G]; [discriminate G|]); exact G|]).
  exact H.
Qed.

(** X2: in every run, whatever the host does, [failed_packages] holds no
    specifier twice, and each specifier in it is a required one, not an
    optional one, whose own install ended with a non-zero return code. *)
Theorem failed_packages_are_failed_required (e : env) :
  NoDup (failed_packages (snd (run e)))
  /\ forall package,
       In package (failed_packages (snd (run e))) ->
       In package packages
       /\ ~ In package optional_packages
       /\ exists i rc,
            nth_error packages i = Some package
            /\ attempt e i package = Exited rc
            /\ rc <> 0.
Proof.
  destruct (version_ok e) eqn:H.
  - rewrite (run_failed_packages e H). split.
    + apply failed_of_NoDup. apply packages_NoDup.
    + intros package Hin.
      assert (Hp : In package packages) by (eapply failed_of_incl; exact Hin).
      split; [exact Hp|]. split; [now apply required_not_optional|].
      destruct (failed_of_sound e packages 0 package Hin) as [i [rc Hi]].
      exists i, rc. exact Hi.
  - rewrite (run_too_old e H). cbn [snd failed_packages]. split.
    + constructor.
    + intros package [].
Qed.

Lemma failed_packages_are_failed_required_witness :
  In "pandas>=1.3.0" (failed_packages (snd (run host_pandas_fails)))
  /\ In "pandas>=1.3.0" packages
  /\ ~ In "pandas>=1.3.0" optional_packages.
Proof.
  assert (Hin : In "pandas>=1.3.0"
                  (failed_packages (snd (run host_pandas_fails)))).
  { vm_compute. left. reflexivity. }
  split; [exact Hin|].
  destruct (failed_packages_are_failed_required host_pandas_fails) as [_ H].
  destruct (H _ Hin) as [H1 [H2 _]]. split; [exact H1|exact H2].
Defined.

(** ** Further properties: the version gate *)

(** X3: the version gate is monotone and blind to the third component: a
    host that passes it still passes it under any version whose major and
    minor components are not smaller, and changing the micro component alone
    never changes the answer of [check_python_version]. *)
Theorem version_gate_is_monotone (e : env) :
  (forall u w,
      fst (check_python_version
             (with_version
                (mk_version (major (version e)) (minor (version e)) u) e) w)
      = fst (check_python_version e w))
  /\ (forall v w w',
         fst (check_python_version e w) = inl true ->
         major (version e) < major v
         \/ (major (version e) = major v /\ minor (version e) <= minor v) ->
         fst (check_python_version (with_version v e) w') = inl true).
Proof.
  split.
  - intros u w. rewrite !check_python_version_eq. reflexivity.
  - intros v w w' H Hle. rewrite check_python_version_eq in *.
    cbn [fst] in *. unfold version_ok in *. cbn [version with_version].
    f_equal. apply negb_true_iff. apply too_old_iff.
    assert (Ht : too_old (version e) = false).
    { destruct (too_old (version e)); [discriminate H|reflexivity]. }
    apply too_old_iff in Ht. lia.
Qed.

Lemma version_gate_is_monotone_witness :
  fst (check_python_version
         (with_version (mk_version 3 7 0) host_all_ok) initial_world)
  = inl true
  /\ fst (check_python_version
            (with_version (mk_version 3 12 4)
               (with_version (mk_version 3 7 0) host_all_ok)) initial_world)
     = inl true.
Proof.
  split; [reflexivity|].
  destruct (version_gate_is_monotone
              (with_version (mk_version 3 7 0) host_all_ok)) as [_ H].
  apply (H (mk_version 3 12 4) initial_world initial_world).
  - reflexivity.
  - right. cbn. lia.
Defined.

(** ** Further properties: the closing lines *)

Lemma lines_of_third (e : env) (l : list string) :
  forall n s,
    In s (lines_of e n l) ->
    get 2 s = Some (ascii_of_nat 147) \/ get 2 s = Some (ascii_of_nat 151).
Proof.
  induction l as [|package rest IH]; intros n s H; simpl in H.
  - contradiction.
  - destruct (attempt e n package) as [rc|name]; [|contradiction].
    destruct H as [<-|H]; [|eapply IH; exact H].
    destruct (rc =? 0); [left|right]; reflexivity.
Qed.

Lemma before_summary_third (e : env) (s : string) :
  In s (header e ++ required_lines e ++ optional_lines e) ->
  get 2 s <> Some "o"%char /\ get 2 s <> Some (ascii_of_nat 133).
Proof.
  unfold header, required_lines, optional_lines. rewrite !in_app_iff.
  cbn [In]. intros [[<-|[<-|[<-|[]]]]|[[<-|H]|[<-|H]]];
    try (split; intros G; vm_compute in G; discriminate G);
    apply lines_of_third in H; destruct H as [-> | ->];
    split; intros G; vm_compute in G; discriminate G.
Qed.

Lemma failure_block_third (failed : list string) (s : string) :
  In s (failure_block failed) ->
  get 2 s <> Some "o"%char /\ get 2 s <> Some (ascii_of_nat 133).
Proof.
  unfold failure_block. rewrite !in_app_iff, in_map_iff. cbn [In].
  intros [[<-|[]]|[[x [<- _]]|[<-|[<-|[]]]]];
    split; intros G; vm_compute in G; discriminate G.
Qed.

(** X4: the success line and the hint that ends the output are printed in
    exactly the runs that end with exit status 0, and those are exactly the
    runs in which [main] returns: a run stopped by the gate, by failed
    required packages or by an uncaught error prints neither. *)
Theorem closing_lines_only_on_success (e : env) :
  (In (nl ++ "To test the installation, run:")%string (stdout (snd (run e)))
   <-> exit_status (run e) = 0)
  /\ (In "✅ All required ML dependencies installed successfully!"
        (stdout (snd (run e)))
      <-> exit_status (run e) = 0)
  /\ (exit_status (run e) = 0 <-> fst (run e) = inl tt).
Proof.
  destruct (version_ok e) eqn:H.
  - destruct (first_raise e 0 (packages ++ optional_packages))
      as [name|] eqn:Hn.
    + assert (Hout : forall s,
                 In s (stdout (snd (run e))) ->
                 get 2 s <> Some "o"%char
                 /\ get 2 s <> Some (ascii_of_nat 133)).
      { intros s Hin. apply before_summary_third with (e := e).
        apply (run_stdout_prefix e H); [congruence|exact Hin]. }
      unfold exit_status. rewrite (run_result e H), Hn.
      split; [|split]; split; try discriminate; intros Hin.
      * apply Hout in Hin. destruct Hin as [Hin _]. now contradiction Hin.
      * apply Hout in Hin. destruct Hin as [_ Hin]. now contradiction Hin.
    + pose proof Hn as Hn'. rewrite first_raise_app in Hn'.
      change (0 + List.length packages)%nat
        with (List.length packages) in Hn'.
      destruct (first_raise e 0 packages) as [name|] eqn:Hr; [discriminate|].
      unfold exit_status. rewrite (run_completes e H Hr Hn').
      cbn [fst snd stdout].
      destruct (failed_of e 0 packages) as [|f fs] eqn:Hf.
      * split; [|split]; split; try reflexivity; intros _;
          rewrite !in_app_iff; right; right; right;
          unfold status_block, success_block; cbn [In]; tauto.
      * assert (Hout : forall s,
                   In s (header e ++ required_lines e ++ optional_lines e
                           ++ (nl ++ banner)%string
                              :: status_block (f :: fs))%list ->
                   get 2 s <> Some "o"%char
                   /\ get 2 s <> Some (ascii_of_nat 133)).
        { intros s Hin. rewrite !app_assoc in Hin. apply in_app_or in Hin.
          destruct Hin as [Hin|[<-|Hin]].
          - rewrite <- app_assoc in Hin.
            now apply before_summary_third with (e := e).
          - split; intros G; vm_compute in G; discriminate G.
          - now apply failure_block_third with (failed := f :: fs). }
        split; [|split]; split; try discriminate; intros Hin.
        -- apply Hout in Hin. destruct Hin as [Hin _]. now contradiction Hin.
        -- apply Hout in Hin. destruct Hin as [_ Hin]. now contradiction Hin.
  - unfold exit_status. rewrite (run_too_old e H). cbn [fst snd stdout In].
    split; [|split]; split; try discriminate;
      intros [G|[G|[G|[]]]]; vm_compute in G; discriminate G.
Qed.

(** ** Further properties: the text of the caught error *)

(** X6: the rendering of a caught error reaches the output and nothing
    else: under any other rendering a run ends the same way, with the same
    exit status, the same commands started and the same
    [failed_packages]. *)
Theorem error_text_only_reaches_output
    (e : env) (f : Z -> list string -> string) :
  fst (run (with_str_error f e)) = fst (run e)
  /\ exit_status (run (with_str_error f e)) = exit_status (run e)
  /\ calls (snd (run (with_str_error f e))) = calls (snd (run e))
  /\ failed_packages (snd (run (with_str_error f e)))
     = failed_packages (snd (run e)).
Proof.
  assert (Hfst : fst (run (with_str_error f e)) = fst (run e)).
  { destruct (version_ok e) eqn:H.
    - rewrite (run_result (with_str_error f e) H), (run_result e H).
      reflexivity.
    - rewrite (run_too_old (with_str_error f e) H), (run_too_old e H).
      reflexivity. }
  split; [exact Hfst|]. split; [unfold exit_status; now rewrite Hfst|].
  destruct (version_ok e) eqn:H.
  - rewrite (run_calls (with_str_error f e) H), (run_calls e H),
      (run_failed_packages (with_str_error f e) H),
      (run_failed_packages e H).
    split; reflexivity.
  - rewrite (run_too_old (with_str_error f e) H), (run_too_old e H).
    split; reflexivity.
Qed.
